(** * The user store of fakestore-zustand-crud

    A shallow embedding of [src/store/userStore.ts]: the [User] and
    [UserState] records, zustand's [set]/[get], the two asynchronous
    fetch actions with their [try]/[catch] blocks and early [return],
    and the two synchronous actions.  The remote API is an explicit
    parameter ([Network]); every request that [axios.get] issues is
    recorded, so that "no request was made" is a statement about the
    run. *)

From Stdlib Require Import ZArith List String Ascii Bool Lia DecimalString.
From Stdlib Require Import DecimalPos.
Import ListNotations.

Local Open Scope string_scope.
Local Open Scope Z_scope.

(** ** Data model *)

(** [number]: the ids handled here are the integers [parseInt] hands to
    the store and the API sends back; they are modelled as [Z].  A
    JavaScript number holds an integer exactly, and prints all of its
    digits, only in the safe range ([isSafeInteger] below). *)
Definition number := Z.

Record Name := mkName {
  firstname : string;
  lastname : string
}.

Record Geolocation := mkGeolocation {
  lat : string;
  long : string
}.

Record Address := mkAddress {
  city : string;
  street : string;
  number_ : number;  (* field [number] of [address] *)
  zipcode : string;
  geolocation : Geolocation
}.

Record User := mkUser {
  id : number;
  email : string;
  username : string;
  password : string;
  name : Name;
  address : Address;
  phone : string
}.

(** The state properties of [UserState]; [null] is [None]. *)
Record UserState := mkState {
  users : list User;
  loading : bool;
  error : option string;
  selectedUser : option User
}.

(** The object literal a call of [set] receives: each state property is
    either absent from the literal ([None]) or given a value. *)
Record Partial := mkPartial {
  p_users : option (list User);
  p_loading : option bool;
  p_error : option (option string);
  p_selectedUser : option (option User)
}.

Definition or_keep {A} (new : option A) (old : A) : A :=
  match new with
  | Some v => v
  | None => old
  end.

(** zustand merges the partial into the current state
    ([Object.assign({}, state, partial)]). *)
Definition assign (s : UserState) (p : Partial) : UserState :=
  {| users := or_keep (p_users p) (users s);
     loading := or_keep (p_loading p) (loading s);
     error := or_keep (p_error p) (error s);
     selectedUser := or_keep (p_selectedUser p) (selectedUser s) |}.

(** Initial state of the store. *)
Definition initial_state : UserState :=
  {| users := []; loading := false; error := None; selectedUser := None |}.

(** ** Exceptions, the console and the remote API *)

Inductive JsError :=
| AxiosError (message : string)
| TypeError (message : string).

(** Console output: the arguments of each [console.log] and
    [console.error] call (the pictogram that opens each message in the
    source is left out of the text). *)
Inductive ConsoleArg :=
| AStr (s : string)
| ANum (n : number)
| AErr (e : JsError).

Inductive ConsoleEntry :=
| Log (args : list ConsoleArg)
| Err (args : list ConsoleArg).

(** What awaiting [axios.get(url)] gives: the promise rejects (transport
    failure or a non-2xx status), or it resolves to a response whose
    [data] is typed [any] in the source.  The model gives [data] the type
    of the slot it is stored in, or [null] ([None]), the payload on which
    the property reads [response.data.length] and
    [response.data.username] throw. *)
Inductive AxiosOutcome (T : Type) :=
| Rejected (e : JsError)
| Resolved (data : option T).

Arguments Rejected {T} e.
Arguments Resolved {T} data.

(** The remote API: what a GET of a url yields, for the collection
    endpoint and for the single-user endpoint. *)
Record Network := mkNetwork {
  serve_users : string -> AxiosOutcome (list User);
  serve_user : string -> AxiosOutcome User
}.

Definition API_BASE_URL : string := "https://fakestoreapi.com".

(** Template-literal conversion of an integer [number]: its decimal
    digits, with a leading minus sign when negative.  This is what
    JavaScript prints for a safe integer; beyond that range it prints the
    shortest digits that read back to the same double, and an exponent
    from 10^21 on, which this function does not follow. *)
Definition number_to_string (n : number) : string :=
  NilZero.string_of_int (Z.to_int n).

(** [Number.MAX_SAFE_INTEGER] and [Number.isSafeInteger] on integers. *)
Definition MAX_SAFE_INTEGER : Z := 2 ^ 53 - 1.

Definition isSafeInteger (n : number) : bool :=
  Z.abs n <=? MAX_SAFE_INTEGER.

(** ** The monad of store actions *)

(** Everything an action can touch: the store's state, the requests
    issued so far (oldest first), the partials passed to [set] (oldest
    first) and the console. *)
Record World := mkWorld {
  store : UserState;
  requests : list string;
  writes : list Partial;
  console : list ConsoleEntry
}.

Definition fresh_world (s : UserState) : World :=
  {| store := s; requests := []; writes := []; console := [] |}.

(** How a block of statements ends: normally, by [return], or by a
    thrown exception. *)
Inductive Completion (A : Type) :=
| Normal (a : A)
| Returned
| Thrown (e : JsError).

Arguments Normal {A} a.
Arguments Returned {A}.
Arguments Thrown {A} e.

Definition M (A : Type) : Type := Network -> World -> Completion A * World.

Definition ret {A} (a : A) : M A := fun _ w => (Normal a, w).

Definition bind {A B} (m : M A) (k : A -> M B) : M B :=
  fun net w =>
    match m net w with
    | (Normal a, w') => k a net w'
    | (Returned, w') => (Returned, w')
    | (Thrown e, w') => (Thrown e, w')
    end.

Declare Scope action_scope.
Delimit Scope action_scope with action.
Notation "x <- m ;; k" := (bind m (fun x => k))
  (at level 61, m at next level, right associativity) : action_scope.
Notation "m ;; k" := (bind m (fun _ => k))
  (at level 61, right associativity) : action_scope.
Local Open Scope action_scope.

Definition throw {A} (e : JsError) : M A := fun _ w => (Thrown e, w).

(** The statement [return;]. *)
Definition return_ {A} : M A := fun _ w => (Returned, w).

(** [try { body } catch (error) { handler error }]. *)
Definition try_catch {A} (body : M A) (handler : JsError -> M A) : M A :=
  fun net w =>
    match body net w with
    | (Thrown e, w') => handler e net w'
    | r => r
    end.

(** The body of an [async] arrow function: [return] ends the call
    normally (the promise fulfils), an escaping exception rejects it. *)
Definition async (body : M unit) : M unit :=
  fun net w =>
    match body net w with
    | (Returned, w') => (Normal tt, w')
    | r => r
    end.

(** zustand's [set] and [get]. *)
Definition set (p : Partial) : M unit :=
  fun _ w =>
    (Normal tt,
     {| store := assign (store w) p;
        requests := requests w;
        writes := writes w ++ [p];
        console := console w |}).

Definition get : M UserState := fun _ w => (Normal (store w), w).

Definition console_log (args : list ConsoleArg) : M unit :=
  fun _ w =>
    (Normal tt,
     {| store := store w;
        requests := requests w;
        writes := writes w;
        console := console w ++ [Log args] |}).

Definition console_error (args : list ConsoleArg) : M unit :=
  fun _ w =>
    (Normal tt,
     {| store := store w;
        requests := requests w;
        writes := writes w;
        console := console w ++ [Err args] |}).

(** [await axios.get(url)]: the request is issued (and recorded), then
    the action resumes with the response data or with the rejection
    thrown. *)
Definition axios_get {T} (serve : Network -> string -> AxiosOutcome T)
    (url : string) : M (option T) :=
  fun net w =>
    let w' := {| store := store w;
                 requests := requests w ++ [url];
                 writes := writes w;
                 console := console w |} in
    match serve net url with
    | Rejected e => (Thrown e, w')
    | Resolved data => (Normal data, w')
    end.

(** Reading property [prop] of [response.data]: a [TypeError] when the
    data is [null]. *)
Definition read_data {T} (data : option T) (prop : string) : M T :=
  match data with
  | Some d => ret d
  | None =>
      throw (TypeError
               ("Cannot read properties of null (reading '" ++ prop ++ "')"))
  end.

(** ** The actions of the store *)

Definition fetchUsers_error : string :=
  "Failed to fetch users. Please try again.".

Definition fetchUsers : M unit :=
  async (
    set {| p_users := None; p_loading := Some true;
           p_error := Some None; p_selectedUser := None |} ;;
    try_catch
      (console_log [AStr "Fetching users from Fake Store API..."] ;;
       data <- axios_get serve_users (API_BASE_URL ++ "/users") ;;
       d <- read_data data "length" ;;
       console_log [AStr "Users fetched successfully:";
                    ANum (Z.of_nat (List.length d)); AStr "users"] ;;
       set {| p_users := Some d; p_loading := Some false;
              p_error := Some None; p_selectedUser := None |})
      (fun error =>
         console_error [AStr "Error fetching users:"; AErr error] ;;
         set {| p_users := None; p_loading := Some false;
                p_error := Some (Some fetchUsers_error);
                p_selectedUser := None |})).

Definition fetchUserById_error (id : number) : string :=
  "Failed to fetch user with ID " ++ number_to_string id
    ++ ". Please try again.".

(** [users.find(user => user.id === id)]. *)
Definition find_user (id0 : number) (l : list User) : option User :=
  find (fun user => id user =? id0) l.

Definition fetchUserById (id0 : number) : M unit :=
  async (
    set {| p_users := None; p_loading := Some true;
           p_error := Some None; p_selectedUser := None |} ;;
    try_catch
      (s <- get ;;
       match find_user id0 (users s) with
       | Some existingUser =>
           console_log [AStr "User found in store cache:";
                        AStr (username existingUser)] ;;
           set {| p_users := None; p_loading := Some false;
                  p_error := None;
                  p_selectedUser := Some (Some existingUser) |} ;;
           return_
       | None => ret tt
       end ;;
       console_log [AStr "Fetching user by ID from API:"; ANum id0] ;;
       data <- axios_get serve_user
                 (API_BASE_URL ++ "/users/" ++ number_to_string id0) ;;
       d <- read_data data "username" ;;
       console_log [AStr "User fetched successfully:"; AStr (username d)] ;;
       set {| p_users := None; p_loading := Some false;
              p_error := Some None; p_selectedUser := Some (Some d) |})
      (fun error =>
         console_error [AStr "Error fetching user by ID:"; AErr error] ;;
         set {| p_users := None; p_loading := Some false;
                p_error := Some (Some (fetchUserById_error id0));
                p_selectedUser := Some None |})).

Definition clearError : M unit :=
  set {| p_users := None; p_loading := None;
         p_error := Some None; p_selectedUser := None |}.

Definition setSelectedUser (user : option User) : M unit :=
  set {| p_users := None; p_loading := None;
         p_error := None; p_selectedUser := Some user |}.

(** ** Running actions *)

(** The world after a call of an action on a store in state [s]. *)
Definition exec (op : M unit) (net : Network) (s : UserState) : World :=
  snd (op net (fresh_world s)).

(** How the call ended. *)
Definition outcome (op : M unit) (net : Network) (s : UserState)
  : Completion unit :=
  fst (op net (fresh_world s)).

(** The state of the store after the call. *)
Definition after (op : M unit) (net : Network) (s : UserState) : UserState :=
  store (exec op net s).

(** Calling an action [n] times in a row, each call awaited before the
    next. *)
Fixpoint times (n : nat) (op : M unit) : M unit :=
  match n with
  | O => ret tt
  | S k => op ;; times k op
  end.

(** Reading [selectedUser] off the store
    ([useUserStore.getState().selectedUser]). *)
Definition read_selectedUser : M (option User) :=
  s <- get ;; ret (selectedUser s).

(** The urls the two fetch actions request. *)
Definition users_url : string := API_BASE_URL ++ "/users".

Definition user_url (id0 : number) : string :=
  API_BASE_URL ++ "/users/" ++ number_to_string id0.

(** Whether some call of [set] carried a [users] property, and whether
    some call carried a non-null [selectedUser]: the success data of the
    two fetch actions. *)
Definition wrote_users (w : World) : bool :=
  existsb (fun p => match p_users p with Some _ => true | None => false end)
          (writes w).

Definition wrote_selectedUser (w : World) : bool :=
  existsb (fun p => match p_selectedUser p with
                    | Some (Some _) => true
                    | _ => false
                    end)
          (writes w).

(** ** Sample data *)

Definition sample_user (i : number) (uname : string) : User :=
  {| id := i;
     email := uname ++ "@example.com";
     username := uname;
     password := "secret";
     name := {| firstname := uname; lastname := "Doe" |};
     address := {| city := "kilcoole"; street := "new road";
                   number_ := 7682; zipcode := "12926-3874";
                   geolocation := {| lat := "-37.3159"; long := "81.1496" |} |};
     phone := "1-570-236-7033" |}.

Definition three_users : list User :=
  [sample_user 1 "johnd"; sample_user 2 "mor_2314"; sample_user 3 "kevinryan"].

(** A remote API that knows the three sample users and answers every
    other single-user request with a 404. *)
Definition sample_network : Network :=
  {| serve_users := fun _ => Resolved (Some three_users);
     serve_user := fun url =>
       match find (fun u => String.eqb url (user_url (id u))) three_users with
       | Some u => Resolved (Some u)
       | None => Rejected (AxiosError "Request failed with status code 404")
       end |}.

(** A remote API that is down. *)
Definition offline_network : Network :=
  {| serve_users := fun _ => Rejected (AxiosError "Network Error");
     serve_user := fun _ => Rejected (AxiosError "Network Error") |}.

(** A remote API whose collection holds two records with one id. *)
Definition duplicate_network : Network :=
  {| serve_users := fun _ =>
       Resolved (Some [sample_user 1 "johnd"; sample_user 1 "johnd_again"]);
     serve_user := fun _ => Resolved None |}.

(** ** Strings as the views use them

    The views work on route parameters, search terms and user fields.
    Strings are taken over the ASCII alphabet: [toLowerCase] maps the
    letters A-Z, and the white space [parseInt] skips is the ASCII white
    space. *)

Definition lower_ascii (c : ascii) : ascii :=
  let n := nat_of_ascii c in
  if ((65 <=? n)%nat && (n <=? 90)%nat)%bool
  then ascii_of_nat (n + 32)
  else c.

(** [s.toLowerCase()]. *)
Fixpoint toLowerCase (s : string) : string :=
  match s with
  | EmptyString => EmptyString
  | String c r => String (lower_ascii c) (toLowerCase r)
  end.

(** [s.includes(sub)]: [sub] occurs in [s] at some position. *)
Fixpoint includes (s sub : string) : bool :=
  if prefix sub s then true
  else match s with
       | EmptyString => false
       | String _ r => includes r sub
       end.

Definition is_whitespace (c : ascii) : bool :=
  let n := nat_of_ascii c in
  (((9 <=? n)%nat && (n <=? 13)%nat) || (n =? 32)%nat)%bool.

Fixpoint skip_whitespace (s : string) : string :=
  match s with
  | String c r => if is_whitespace c then skip_whitespace r else s
  | EmptyString => EmptyString
  end.

(** The value of a decimal digit character. *)
Definition digit_of (c : ascii) : option Z :=
  let n := nat_of_ascii c in
  if ((48 <=? n)%nat && (n <=? 57)%nat)%bool
  then Some (Z.of_nat (n - 48))
  else None.

(** The value of the longest run of decimal digits that opens [s],
    continuing from [acc]. *)
Fixpoint parse_digits (s : string) (acc : Z) : Z :=
  match s with
  | String c r =>
      match digit_of c with
      | Some d => parse_digits r (10 * acc + d)
      | None => acc
      end
  | EmptyString => acc
  end.

(** [parseInt(s, 10)]: leading white space is skipped, one sign is
    accepted, then the longest run of digits is read and whatever follows
    is ignored; [NaN] ([None]) when no digit is found there.  The value
    is the exact integer the digits spell, which is what JavaScript
    returns when that integer is safe; a longer run of digits is rounded
    to a double there, which this function does not follow. *)
Definition parseInt (s : string) : option number :=
  let t := skip_whitespace s in
  let '(sign, body) :=
    match t with
    | String "-"%char r => (-1, r)
    | String "+"%char r => (1, r)
    | _ => (1, t)
    end in
  match body with
  | String c _ =>
      match digit_of c with
      | Some _ => Some (sign * parse_digits body 0)
      | None => None
      end
  | EmptyString => None
  end.

(** [sub] occurs in [s]. *)
Definition occurs_in (sub s : string) : Prop :=
  exists p q, s = (p ++ sub ++ q)%string.

(** What may follow the digits [parseInt] reads: nothing, or a character
    that is not a digit. *)
Definition no_digit_next (rest : string) : bool :=
  match rest with
  | EmptyString => true
  | String c _ => match digit_of c with Some _ => false | None => true end
  end.

(** Truthiness of a [string | null] or [string | undefined] value: null,
    undefined and the empty string are falsy. *)
Definition truthy (o : option string) : bool :=
  match o with
  | Some (String _ _) => true
  | _ => false
  end.

(** ** The view layer: effects of the components

    What the components touch beside the store: the toasts shown and the
    paths passed to [navigate] (oldest first). *)

Record Toast := mkToast {
  variant : string;
  title : string;
  description : string
}.

Record Browser := mkBrowser {
  world : World;
  toasts : list Toast;
  navigations : list string
}.

Definition fresh_browser (s : UserState) : Browser :=
  {| world := fresh_world s; toasts := []; navigations := [] |}.

Definition V (A : Type) : Type :=
  Network -> Browser -> Completion A * Browser.

Definition vret {A} (a : A) : V A := fun _ b => (Normal a, b).

Definition vbind {A B} (m : V A) (k : A -> V B) : V B :=
  fun net b =>
    match m net b with
    | (Normal a, b') => k a net b'
    | (Returned, b') => (Returned, b')
    | (Thrown e, b') => (Thrown e, b')
    end.

Declare Scope view_scope.
Delimit Scope view_scope with view.
Notation "x <- m ;; k" := (vbind m (fun x => k))
  (at level 61, m at next level, right associativity) : view_scope.
Notation "m ;; k" := (vbind m (fun _ => k))
  (at level 61, right associativity) : view_scope.

(** A store action or console call made from a component.  The fetch
    actions are called without [await]; each is run to completion
    here. *)
Definition lift {A} (m : M A) : V A :=
  fun net b =>
    let '(c, w') := m net (world b) in
    (c, {| world := w'; toasts := toasts b; navigations := navigations b |}).

Definition toast (t : Toast) : V unit :=
  fun _ b =>
    (Normal tt,
     {| world := world b; toasts := toasts b ++ [t];
        navigations := navigations b |}).

Definition navigate (path : string) : V unit :=
  fun _ b =>
    (Normal tt,
     {| world := world b; toasts := toasts b;
        navigations := navigations b ++ [path] |}).

(** *** UserCard *)

Definition fullName (user : User) : string :=
  firstname (name user) ++ " " ++ lastname (name user).

Definition UserCard_handleClick (user : User)
    (onClick : option (User -> V unit)) : V unit :=
  match onClick with
  | Some handler =>
      (lift (console_log [AStr "UserCard clicked for user:";
                          AStr (username user)]) ;;
       handler user)%view
  | None => vret tt
  end.

(** *** UserList *)

Definition handleUserClick (user : User) : V unit :=
  (lift (console_log [AStr "Navigating to user detail:";
                      AStr (username user)]) ;;
   navigate ("/user/" ++ number_to_string (id user)))%view.

Definition UserList_handleRetry : V unit :=
  (lift (console_log [AStr "Retrying user fetch..."]) ;;
   lift clearError ;;
   lift fetchUsers)%view.

(** The predicate of [users.filter(...)]. *)
Definition matches_search (searchTerm : string) (user : User) : bool :=
  let searchLower := toLowerCase searchTerm in
  let fullName0 := toLowerCase (fullName user) in
  (includes (toLowerCase (username user)) searchLower
   || includes (toLowerCase (email user)) searchLower
   || includes fullName0 searchLower)%bool.

Definition filteredUsers (users0 : list User) (searchTerm : string)
  : list User :=
  filter (matches_search searchTerm) users0.

(** What the list renders: each conditional section of the JSX is
    present or absent.  [grid] is the section guarded by
    [!loading && !error]: the cards of the filtered users, or the
    "No users found" panel when there are none. *)
Inductive GridSection :=
| Cards (shown : list User)
| NoUsersFound.

Record ListView := mkListView {
  search_count : option nat;   (* "Found n user(s) matching ..." *)
  error_alert : option string; (* the alert with the Retry button *)
  skeleton : bool;             (* the loading placeholders *)
  grid : option GridSection;
  stats_footer : option (nat * nat)  (* total users, displayed *)
}.

Definition UserList_render (s : UserState) (searchTerm : string) : ListView :=
  let shown := filteredUsers (users s) searchTerm in
  let idle := (negb (loading s) && negb (truthy (error s)))%bool in
  {| search_count :=
       if truthy (Some searchTerm) then Some (List.length shown) else None;
     error_alert := if truthy (error s) then error s else None;
     skeleton := loading s;
     grid :=
       if idle
       then Some (if (0 <? List.length shown)%nat
                  then Cards shown else NoUsersFound)
       else None;
     stats_footer :=
       if (idle && (0 <? List.length (users s))%nat)%bool
       then Some (List.length (users s), List.length shown)
       else None |}.

(** *** UserDetail *)

(** The effect run when the detail view mounts or the route parameter
    [id] changes ([None] when the route has no parameter). *)
Definition UserDetail_mount (id0 : option string) : V unit :=
  match id0 with
  | Some (String c r) =>
      let s := String c r in
      match parseInt s with
      | Some userId =>
          (lift (console_log [AStr "UserDetail mounted, fetching user ID:";
                              ANum userId]) ;;
           lift (fetchUserById userId))%view
      | None =>
          (lift (console_error [AStr "Invalid user ID in URL:"; AStr s]) ;;
           toast {| variant := "destructive"; title := "Invalid User ID";
                    description := "The user ID in the URL is not valid." |})%view
      end
  | _ => vret tt
  end.

Definition fullAddress (user : User) : string :=
  number_to_string (number_ (address user)) ++ " "
    ++ street (address user) ++ ", " ++ city (address user) ++ ", "
    ++ zipcode (address user).

(** What the detail view renders: the chain of early returns. *)
Inductive DetailView :=
| DetailSkeleton
| DetailError (message : string)
| UserNotFound
| DetailCard (user : User) (heading : string) (street_address : string).

Definition UserDetail_render (s : UserState) : DetailView :=
  if loading s then DetailSkeleton
  else
    match selectedUser s with
    | None =>
        match error s with
        | Some (String c r) => DetailError (String c r)
        | _ => UserNotFound
        end
    | Some user => DetailCard user (fullName user) (fullAddress user)
    end.

(** Running a component's handler or effect on a store in state [s]. *)
Definition vexec (op : V unit) (net : Network) (s : UserState) : Browser :=
  snd (op net (fresh_browser s)).

(** ** Lookup in the users collection *)

Lemma find_user_some (i : number) (l : list User) (u : User) :
  find_user i l = Some u -> In u l /\ id u = i.
Proof.
  unfold find_user. intros H.
  apply find_some in H. destruct H as [Hin Heq].
  split; [exact Hin | now apply Z.eqb_eq].
Qed.

Lemma find_user_present (i : number) (l : list User) :
  (exists r, In r l /\ id r = i) -> exists u, find_user i l = Some u.
Proof.
  intros [r [Hin Hid]].
  destruct (find_user i l) as [u|] eqn:E.
  - now exists u.
  - unfold find_user in E.
    pose proof (find_none _ _ E r Hin) as Hf. cbv beta in Hf.
    apply Z.eqb_neq in Hf. contradiction.
Qed.

Lemma find_user_absent (i : number) (l : list User) :
  (forall r, In r l -> id r <> i) -> find_user i l = None.
Proof.
  intros H. destruct (find_user i l) as [u|] eqn:E; [|reflexivity].
  apply find_user_some in E. destruct E as [Hin Hid].
  exfalso. exact (H u Hin Hid).
Qed.

Lemma find_user_first (i : number) (l1 l2 : list User) (u : User) :
  (forall r, In r l1 -> id r <> i) -> id u = i ->
  find_user i (l1 ++ u :: l2) = Some u.
Proof.
  intros Hl1 Hu. induction l1 as [|a l1 IH]; simpl.
  - unfold find_user; simpl. rewrite Hu, Z.eqb_refl. reflexivity.
  - unfold find_user; simpl.
    destruct (id a =? i) eqn:E.
    + apply Z.eqb_eq in E. exfalso. apply (Hl1 a); [now left | exact E].
    + apply IH. intros r Hr. apply Hl1. now right.
Qed.

(** ** One equation per path through the actions *)

Ltac step_action :=
  unfold async, try_catch, bind, set, get, console_log, console_error,
    axios_get, read_data, ret, throw, return_; simpl.

Lemma fetchUsers_resolved (net : Network) (w : World) (R : list User) :
  serve_users net users_url = Resolved (Some R) ->
  fetchUsers net w =
  (Normal tt,
   {| store := {| users := R; loading := false; error := None;
                  selectedUser := selectedUser (store w) |};
      requests := requests w ++ [users_url];
      writes := (writes w
                 ++ [mkPartial None (Some true) (Some None) None])
                 ++ [mkPartial (Some R) (Some false) (Some None) None];
      console := (console w
                  ++ [Log [AStr "Fetching users from Fake Store API..."]])
                  ++ [Log [AStr "Users fetched successfully:";
                           ANum (Z.of_nat (List.length R)); AStr "users"]] |}).
Proof.
  intros H. unfold users_url in H. simpl in H.
  unfold fetchUsers. step_action. rewrite H. reflexivity.
Qed.

Lemma fetchUsers_failed (net : Network) (w : World) (e : JsError) :
  serve_users net users_url = Rejected e
  \/ (serve_users net users_url = Resolved None
      /\ e = TypeError "Cannot read properties of null (reading 'length')") ->
  fetchUsers net w =
  (Normal tt,
   {| store := {| users := users (store w); loading := false;
                  error := Some fetchUsers_error;
                  selectedUser := selectedUser (store w) |};
      requests := requests w ++ [users_url];
      writes := (writes w
                 ++ [mkPartial None (Some true) (Some None) None])
                 ++ [mkPartial None (Some false)
                       (Some (Some fetchUsers_error)) None];
      console := (console w
                  ++ [Log [AStr "Fetching users from Fake Store API..."]])
                  ++ [Err [AStr "Error fetching users:"; AErr e]] |}).
Proof.
  intros [H | [H He]]; unfold users_url in H; simpl in H;
    unfold fetchUsers; step_action; rewrite H; subst; reflexivity.
Qed.

Lemma fetchUserById_hit (net : Network) (w : World) (i : number) (u : User) :
  find_user i (users (store w)) = Some u ->
  fetchUserById i net w =
  (Normal tt,
   {| store := {| users := users (store w); loading := false; error := None;
                  selectedUser := Some u |};
      requests := requests w;
      writes := (writes w
                 ++ [mkPartial None (Some true) (Some None) None])
                 ++ [mkPartial None (Some false) None (Some (Some u))];
      console := console w
                 ++ [Log [AStr "User found in store cache:";
                          AStr (username u)]] |}).
Proof.
  intros H. unfold fetchUserById. step_action.
  rewrite H. reflexivity.
Qed.

Lemma fetchUserById_miss_resolved (net : Network) (w : World) (i : number)
    (u : User) :
  find_user i (users (store w)) = None ->
  serve_user net (user_url i) = Resolved (Some u) ->
  fetchUserById i net w =
  (Normal tt,
   {| store := {| users := users (store w); loading := false; error := None;
                  selectedUser := Some u |};
      requests := requests w ++ [user_url i];
      writes := (writes w
                 ++ [mkPartial None (Some true) (Some None) None])
                 ++ [mkPartial None (Some false) (Some None) (Some (Some u))];
      console := (console w
                  ++ [Log [AStr "Fetching user by ID from API:"; ANum i]])
                  ++ [Log [AStr "User fetched successfully:";
                           AStr (username u)]] |}).
Proof.
  intros Hf H. unfold user_url in H. simpl in H.
  unfold fetchUserById. step_action.
  rewrite Hf. simpl. rewrite H. reflexivity.
Qed.

Lemma fetchUserById_miss_failed (net : Network) (w : World) (i : number)
    (e : JsError) :
  find_user i (users (store w)) = None ->
  serve_user net (user_url i) = Rejected e
  \/ (serve_user net (user_url i) = Resolved None
      /\ e = TypeError
               "Cannot read properties of null (reading 'username')") ->
  fetchUserById i net w =
  (Normal tt,
   {| store := {| users := users (store w); loading := false;
                  error := Some (fetchUserById_error i);
                  selectedUser := None |};
      requests := requests w ++ [user_url i];
      writes := (writes w
                 ++ [mkPartial None (Some true) (Some None) None])
                 ++ [mkPartial None (Some false)
                       (Some (Some (fetchUserById_error i))) (Some None)];
      console := (console w
                  ++ [Log [AStr "Fetching user by ID from API:"; ANum i]])
                  ++ [Err [AStr "Error fetching user by ID:"; AErr e]] |}).
Proof.
  intros Hf [H | [H He]]; unfold user_url in H; simpl in H;
    unfold fetchUserById; step_action;
    rewrite Hf; simpl; rewrite H; subst; reflexivity.
Qed.

Lemma times_hit (net : Network) (i : number) (u : User) (n : nat) :
  forall w, find_user i (users (store w)) = Some u ->
  fst (times n (fetchUserById i) net w) = Normal tt /\
  requests (snd (times n (fetchUserById i) net w)) = requests w /\
  selectedUser (store (snd (times (S n) (fetchUserById i) net w))) = Some u.
Proof.
  induction n as [|k IH]; intros w H.
  - simpl. unfold bind, ret. rewrite (fetchUserById_hit net w i u H).
    simpl. auto.
  - pose proof (fetchUserById_hit net w i u H) as E.
    change (times (S (S k)) (fetchUserById i) net w)
      with (bind (fetchUserById i)
                 (fun _ => times (S k) (fetchUserById i)) net w).
    change (times (S k) (fetchUserById i) net w)
      with (bind (fetchUserById i)
                 (fun _ => times k (fetchUserById i)) net w).
    unfold bind at 1 2 3. rewrite E.
    match goal with
    | |- context [times k (fetchUserById i) net ?w1] =>
        destruct (IH w1 H) as [H1 [H2 H3]]
    end.
    repeat split; assumption.
Qed.

(** ** The claims *)

(** C1: a call [fetchUserById(id)] made while a record with that id is in
    [users] issues no request, leaves [selectedUser] equal to the stored
    record the lookup finds (a member of [users] with that id) and
    [loading] false; [users] is untouched, so any number of further calls
    for the same id never issue a request either. *)
Theorem fetchUserById_cache_hit (net : Network) (s : UserState) (i : number)
    (Hpresent : exists r, In r (users s) /\ id r = i) :
  requests (exec (fetchUserById i) net s) = [] /\
  (exists u, selectedUser (after (fetchUserById i) net s) = Some u
             /\ find_user i (users s) = Some u
             /\ In u (users s) /\ id u = i) /\
  loading (after (fetchUserById i) net s) = false /\
  users (after (fetchUserById i) net s) = users s /\
  (forall n, requests (exec (times n (fetchUserById i)) net s) = []).
Proof.
  destruct (find_user_present i (users s) Hpresent) as [u Hu].
  destruct (find_user_some i (users s) u Hu) as [Hin Hid].
  unfold after, exec.
  rewrite (fetchUserById_hit net (fresh_world s) i u Hu). simpl.
  repeat split; try reflexivity.
  - exists u. auto.
  - intros n. destruct (times_hit net i u n (fresh_world s) Hu) as [_ [H _]].
    exact H.
Qed.

Lemma fetchUserById_cache_hit_witness :
  (exists r, In r three_users /\ id r = 2) /\
  requests (exec (fetchUserById 2) offline_network
                 (mkState three_users false None None)) = [] /\
  (exists u, selectedUser (after (fetchUserById 2) offline_network
                                 (mkState three_users false None None))
             = Some u
             /\ find_user 2 three_users = Some u
             /\ In u three_users /\ id u = 2) /\
  loading (after (fetchUserById 2) offline_network
                 (mkState three_users false None None)) = false /\
  users (after (fetchUserById 2) offline_network
               (mkState three_users false None None)) = three_users /\
  (forall n, requests (exec (times n (fetchUserById 2)) offline_network
                            (mkState three_users false None None)) = []).
Proof.
  assert (H : exists r, In r three_users /\ id r = 2).
  { exists (sample_user 2 "mor_2314"). simpl. auto. }
  split; [exact H |].
  exact (fetchUserById_cache_hit offline_network
           (mkState three_users false None None) 2 H).
Defined.

(** C2: when the request of [fetchUsers] resolves with the collection
    [R], the call ends normally with [loading] false, [error] null and
    [users] equal to [R], whatever the state before the call. *)
Theorem fetchUsers_success (net : Network) (s : UserState) (R : list User)
    (Hok : serve_users net users_url = Resolved (Some R)) :
  outcome fetchUsers net s = Normal tt /\
  loading (after fetchUsers net s) = false /\
  error (after fetchUsers net s) = None /\
  users (after fetchUsers net s) = R.
Proof.
  unfold outcome, after, exec.
  rewrite (fetchUsers_resolved net (fresh_world s) R Hok). simpl. auto.
Qed.

Lemma fetchUsers_success_witness :
  serve_users sample_network users_url = Resolved (Some three_users) /\
  outcome fetchUsers sample_network
    (mkState [sample_user 9 "old"] true (Some "stale"%string)
             (Some (sample_user 9 "old"))) = Normal tt /\
  loading (after fetchUsers sample_network
    (mkState [sample_user 9 "old"] true (Some "stale"%string)
             (Some (sample_user 9 "old")))) = false /\
  error (after fetchUsers sample_network
    (mkState [sample_user 9 "old"] true (Some "stale"%string)
             (Some (sample_user 9 "old")))) = None /\
  users (after fetchUsers sample_network
    (mkState [sample_user 9 "old"] true (Some "stale"%string)
             (Some (sample_user 9 "old")))) = three_users.
Proof.
  split; [reflexivity |].
  apply (fetchUsers_success sample_network
           (mkState [sample_user 9 "old"] true (Some "stale"%string)
                    (Some (sample_user 9 "old"))) three_users).
  reflexivity.
Defined.

(** C3: when the request of [fetchUsers] is rejected, the call leaves
    [loading] false, [error] equal to the fixed message and [users] as it
    was before the call. *)
Theorem fetchUsers_failure (net : Network) (s : UserState) (e : JsError)
    (Hfail : serve_users net users_url = Rejected e) :
  loading (after fetchUsers net s) = false /\
  error (after fetchUsers net s)
  = Some "Failed to fetch users. Please try again."%string /\
  users (after fetchUsers net s) = users s.
Proof.
  unfold after, exec.
  rewrite (fetchUsers_failed net (fresh_world s) e (or_introl Hfail)).
  simpl. auto.
Qed.

Lemma fetchUsers_failure_witness :
  serve_users offline_network users_url
  = Rejected (AxiosError "Network Error") /\
  loading (after fetchUsers offline_network
                 (mkState three_users false None None)) = false /\
  error (after fetchUsers offline_network
               (mkState three_users false None None))
  = Some "Failed to fetch users. Please try again."%string /\
  users (after fetchUsers offline_network
               (mkState three_users false None None)) = three_users.
Proof.
  split; [reflexivity |].
  apply (fetchUsers_failure offline_network
           (mkState three_users false None None)
           (AxiosError "Network Error")).
  reflexivity.
Defined.

(** C4: when [id] is not in [users] and the request of
    [fetchUserById(id)] is rejected, the call leaves [selectedUser] null,
    [loading] false and [error] equal to the message with the decimal
    form of [id] between its fixed prefix and suffix.  The id is a safe
    integer, the range in which the template literal prints exactly these
    digits. *)
Theorem fetchUserById_failure (net : Network) (s : UserState) (i : number)
    (e : JsError)
    (Hsafe : isSafeInteger i = true)
    (Habsent : forall r, In r (users s) -> id r <> i)
    (Hfail : serve_user net (user_url i) = Rejected e) :
  selectedUser (after (fetchUserById i) net s) = None /\
  loading (after (fetchUserById i) net s) = false /\
  error (after (fetchUserById i) net s)
  = Some ("Failed to fetch user with ID " ++ number_to_string i
            ++ ". Please try again.")%string.
Proof.
  pose proof (find_user_absent i (users s) Habsent) as Hf.
  unfold after, exec.
  rewrite (fetchUserById_miss_failed net (fresh_world s) i e Hf
             (or_introl Hfail)).
  simpl. auto.
Qed.

Lemma fetchUserById_failure_witness :
  isSafeInteger 99 = true /\
  (forall r, In r three_users -> id r <> 99) /\
  serve_user sample_network (user_url 99)
  = Rejected (AxiosError "Request failed with status code 404") /\
  selectedUser (after (fetchUserById 99) sample_network
                      (mkState three_users false None
                               (Some (sample_user 1 "johnd")))) = None /\
  loading (after (fetchUserById 99) sample_network
                 (mkState three_users false None
                          (Some (sample_user 1 "johnd")))) = false /\
  error (after (fetchUserById 99) sample_network
               (mkState three_users false None
                        (Some (sample_user 1 "johnd"))))
  = Some "Failed to fetch user with ID 99. Please try again."%string.
Proof.
  assert (Ha : forall r, In r three_users -> id r <> 99).
  { intros r Hr. simpl in Hr.
    destruct Hr as [<- | [<- | [<- | []]]]; simpl; lia. }
  split; [reflexivity |].
  split; [exact Ha |].
  split; [reflexivity |].
  exact (fetchUserById_failure sample_network
           (mkState three_users false None (Some (sample_user 1 "johnd")))
           99 (AxiosError "Request failed with status code 404")
           eq_refl Ha eq_refl).
Defined.

(** C5: when [id] is not in [users] and the request of
    [fetchUserById(id)] resolves with the user [u], [selectedUser] is [u]
    afterwards and [users] is what it was before the call. *)
Theorem fetchUserById_not_merged (net : Network) (s : UserState)
    (i : number) (u : User)
    (Habsent : forall r, In r (users s) -> id r <> i)
    (Hok : serve_user net (user_url i) = Resolved (Some u)) :
  selectedUser (after (fetchUserById i) net s) = Some u /\
  users (after (fetchUserById i) net s) = users s.
Proof.
  pose proof (find_user_absent i (users s) Habsent) as Hf.
  unfold after, exec.
  rewrite (fetchUserById_miss_resolved net (fresh_world s) i u Hf Hok).
  simpl. auto.
Qed.

Lemma fetchUserById_not_merged_witness :
  (forall r, In r [sample_user 1 "johnd"] -> id r <> 2) /\
  serve_user sample_network (user_url 2)
  = Resolved (Some (sample_user 2 "mor_2314")) /\
  selectedUser (after (fetchUserById 2) sample_network
                      (mkState [sample_user 1 "johnd"] false None None))
  = Some (sample_user 2 "mor_2314") /\
  users (after (fetchUserById 2) sample_network
               (mkState [sample_user 1 "johnd"] false None None))
  = [sample_user 1 "johnd"].
Proof.
  assert (Ha : forall r, In r [sample_user 1 "johnd"] -> id r <> 2).
  { intros r Hr. simpl in Hr. destruct Hr as [<- | []]. simpl. lia. }
  split; [exact Ha |].
  split; [reflexivity |].
  exact (fetchUserById_not_merged sample_network
           (mkState [sample_user 1 "johnd"] false None None)
           2 (sample_user 2 "mor_2314") Ha eq_refl).
Defined.

(** C6: for every remote API and every world, a call of [fetchUsers] or
    of [fetchUserById] ends normally, never with an exception; after the
    call the [error] slot holds the action's message exactly when the
    request was rejected or its payload could not be read, and null
    otherwise. *)
Theorem fetch_never_throws (net : Network) (w : World) :
  fst (fetchUsers net w) = Normal tt /\
  (forall i, fst (fetchUserById i net w) = Normal tt) /\
  error (store (snd (fetchUsers net w)))
  = match serve_users net users_url with
    | Resolved (Some _) => None
    | _ => Some fetchUsers_error
    end /\
  (forall i,
     error (store (snd (fetchUserById i net w)))
     = match find_user i (users (store w)) with
       | Some _ => None
       | None =>
           match serve_user net (user_url i) with
           | Resolved (Some _) => None
           | _ => Some (fetchUserById_error i)
           end
       end).
Proof.
  assert (HU : fst (fetchUsers net w) = Normal tt /\
               error (store (snd (fetchUsers net w)))
               = match serve_users net users_url with
                 | Resolved (Some _) => None
                 | _ => Some fetchUsers_error
                 end).
  { destruct (serve_users net users_url) as [e | [R |]] eqn:E.
    - rewrite (fetchUsers_failed net w e (or_introl E)). split; reflexivity.
    - rewrite (fetchUsers_resolved net w R E). split; reflexivity.
    - rewrite (fetchUsers_failed net w _ (or_intror (conj E eq_refl))).
      split; reflexivity. }
  assert (HI : forall i,
             fst (fetchUserById i net w) = Normal tt /\
             error (store (snd (fetchUserById i net w)))
             = match find_user i (users (store w)) with
               | Some _ => None
               | None =>
                   match serve_user net (user_url i) with
                   | Resolved (Some _) => None
                   | _ => Some (fetchUserById_error i)
                   end
               end).
  { intros i. destruct (find_user i (users (store w))) as [u |] eqn:F.
    - rewrite (fetchUserById_hit net w i u F). split; reflexivity.
    - destruct (serve_user net (user_url i)) as [e | [u |]] eqn:E.
      + rewrite (fetchUserById_miss_failed net w i e F (or_introl E)).
        split; reflexivity.
      + rewrite (fetchUserById_miss_resolved net w i u F E).
        split; reflexivity.
      + rewrite (fetchUserById_miss_failed net w i _ F
                   (or_intror (conj E eq_refl))).
        split; reflexivity. }
  destruct HU as [HU1 HU2].
  repeat split; try assumption; intros i; apply (HI i).
Qed.

(** C7: a completed fetch leaves [loading] false and exactly one of two
    outcomes: [error] is null and the action's success data was passed to
    [set] ([users] by [fetchUsers], a non-null [selectedUser] by
    [fetchUserById]), or [error] is the action's message and no success
    data was passed to [set]. *)
Theorem fetch_completed_outcome (net : Network) (s : UserState) :
  (loading (after fetchUsers net s) = false /\
   ((error (after fetchUsers net s) = None
     /\ wrote_users (exec fetchUsers net s) = true)
    \/ (error (after fetchUsers net s) = Some fetchUsers_error
        /\ wrote_users (exec fetchUsers net s) = false)) /\
   ~ (wrote_users (exec fetchUsers net s) = true
      /\ error (after fetchUsers net s) <> None)) /\
  (forall i,
     loading (after (fetchUserById i) net s) = false /\
     ((error (after (fetchUserById i) net s) = None
       /\ wrote_selectedUser (exec (fetchUserById i) net s) = true)
      \/ (error (after (fetchUserById i) net s)
          = Some (fetchUserById_error i)
          /\ wrote_selectedUser (exec (fetchUserById i) net s) = false)) /\
     ~ (wrote_selectedUser (exec (fetchUserById i) net s) = true
        /\ error (after (fetchUserById i) net s) <> None)).
Proof.
  split.
  - unfold after, exec.
    destruct (serve_users net users_url) as [e | [R |]] eqn:E.
    + rewrite (fetchUsers_failed net _ e (or_introl E)).
      cbn. repeat split; [right; split; reflexivity | intros [H _]; discriminate].
    + rewrite (fetchUsers_resolved net _ R E).
      cbn. repeat split; [left; split; reflexivity | intros [_ H]; now apply H].
    + rewrite (fetchUsers_failed net _ _ (or_intror (conj E eq_refl))).
      cbn. repeat split; [right; split; reflexivity | intros [H _]; discriminate].
  - intros i. unfold after, exec.
    destruct (find_user i (users s)) as [u |] eqn:F.
    + rewrite (fetchUserById_hit net (fresh_world s) i u F).
      cbn. repeat split; [left; split; reflexivity | intros [_ H]; now apply H].
    + destruct (serve_user net (user_url i)) as [e | [u |]] eqn:E.
      * rewrite (fetchUserById_miss_failed net (fresh_world s) i e F
                   (or_introl E)).
        cbn. repeat split;
          [right; split; reflexivity | intros [H _]; discriminate].
      * rewrite (fetchUserById_miss_resolved net (fresh_world s) i u F E).
        cbn. repeat split;
          [left; split; reflexivity | intros [_ H]; now apply H].
      * rewrite (fetchUserById_miss_failed net (fresh_world s) i _ F
                   (or_intror (conj E eq_refl))).
        cbn. repeat split;
          [right; split; reflexivity | intros [H _]; discriminate].
Qed.

(** C8: [clearError] ends normally, sets [error] to null and changes
    nothing else ([users], [selectedUser] and [loading] keep their
    values, no request is issued); on a state whose [error] is already
    null it gives the same state back, and two calls in a row give the
    state that one call gives. *)
Theorem clearError_idempotent (net : Network) (s : UserState) :
  outcome clearError net s = Normal tt /\
  after clearError net s
  = {| users := users s; loading := loading s; error := None;
       selectedUser := selectedUser s |} /\
  requests (exec clearError net s) = [] /\
  (forall l b su,
     after clearError net (mkState l b None su) = mkState l b None su) /\
  after (clearError ;; clearError) net s = after clearError net s /\
  after clearError net (after clearError net s) = after clearError net s.
Proof.
  repeat split; reflexivity.
Qed.

(** C9: for every [u] (a user or null) and every prior world,
    [setSelectedUser(u)] followed by a read of [selectedUser] yields [u];
    the slot is overwritten whatever it held, and the other slots keep
    their values. *)
Theorem setSelectedUser_roundtrip (net : Network) (w : World)
    (u : option User) :
  fst ((setSelectedUser u ;; read_selectedUser) net w) = Normal u /\
  store (snd (setSelectedUser u net w))
  = {| users := users (store w); loading := loading (store w);
       error := error (store w); selectedUser := u |}.
Proof.
  split; reflexivity.
Qed.

(** C10: when [users] holds several records with the requested id,
    [fetchUserById(id)] selects the first of them in list order and
    issues no request; nothing keeps such a collection out of the store:
    [fetchUsers] stores a response with a repeated id as it is. *)
Theorem fetchUserById_first_match (net : Network) (s : UserState)
    (i : number) (l1 l2 : list User) (u : User)
    (Hsplit : users s = (l1 ++ u :: l2)%list)
    (Hbefore : forall r, In r l1 -> id r <> i)
    (Hid : id u = i) :
  selectedUser (after (fetchUserById i) net s) = Some u /\
  requests (exec (fetchUserById i) net s) = [] /\
  ~ NoDup (map id (users (after fetchUsers duplicate_network initial_state))).
Proof.
  assert (Hf : find_user i (users (store (fresh_world s))) = Some u).
  { simpl. rewrite Hsplit. now apply find_user_first. }
  unfold after, exec.
  rewrite (fetchUserById_hit net (fresh_world s) i u Hf).
  repeat split.
  cbn. intros H. inversion H as [| x l Hnin Hnd]; subst.
  apply Hnin. now left.
Qed.

Lemma fetchUserById_first_match_witness :
  users (mkState [sample_user 1 "johnd"; sample_user 2 "first";
                  sample_user 3 "kevinryan"; sample_user 2 "second"]
                 false None None)
  = ([sample_user 1 "johnd"]
       ++ sample_user 2 "first"
       :: [sample_user 3 "kevinryan"; sample_user 2 "second"])%list /\
  (forall r, In r [sample_user 1 "johnd"] -> id r <> 2) /\
  id (sample_user 2 "first") = 2 /\
  selectedUser
    (after (fetchUserById 2) offline_network
       (mkState [sample_user 1 "johnd"; sample_user 2 "first";
                 sample_user 3 "kevinryan"; sample_user 2 "second"]
                false None None))
  = Some (sample_user 2 "first") /\
  requests
    (exec (fetchUserById 2) offline_network
       (mkState [sample_user 1 "johnd"; sample_user 2 "first";
                 sample_user 3 "kevinryan"; sample_user 2 "second"]
                false None None)) = [] /\
  ~ NoDup (map id (users (after fetchUsers duplicate_network initial_state))).
Proof.
  assert (Ha : forall r, In r [sample_user 1 "johnd"] -> id r <> 2).
  { intros r Hr. simpl in Hr. destruct Hr as [<- | []]. simpl. lia. }
  split; [reflexivity |].
  split; [exact Ha |].
  split; [reflexivity |].
  exact (fetchUserById_first_match offline_network
           (mkState [sample_user 1 "johnd"; sample_user 2 "first";
                     sample_user 3 "kevinryan"; sample_user 2 "second"]
                    false None None)
           2 [sample_user 1 "johnd"]
           [sample_user 3 "kevinryan"; sample_user 2 "second"]
           (sample_user 2 "first") eq_refl Ha eq_refl).
Defined.

(** ** The scenario of the specification

    The store starts empty; [fetchUsers] against three users, then
    [fetchUserById(2)], then [fetchUserById(99)] answered with a 404. *)
Example scenario_three_users :
  let w1 := exec fetchUsers sample_network initial_state in
  let w2 := exec (fetchUsers ;; fetchUserById 2) sample_network
                 initial_state in
  let w3 := exec (fetchUsers ;; fetchUserById 2 ;; fetchUserById 99)
                 sample_network initial_state in
  List.length (users (store w1)) = 3%nat /\
  loading (store w1) = false /\
  requests w2 = requests w1 /\
  option_map id (selectedUser (store w2)) = Some 2 /\
  selectedUser (store w3) = None /\
  error (store w3)
  = Some "Failed to fetch user with ID 99. Please try again."%string.
Proof.
  vm_compute. repeat split; reflexivity.
Qed.

(** ** Strings: substrings, lower case and [parseInt] *)

Lemma append_nil_r (s : string) : (s ++ EmptyString)%string = s.
Proof.
  induction s as [|c s IH]; simpl; [reflexivity | now rewrite IH].
Qed.

Lemma append_assoc (a b c : string) :
  ((a ++ b) ++ c)%string = (a ++ b ++ c)%string.
Proof.
  induction a as [|x a IH]; simpl; [reflexivity | now rewrite IH].
Qed.

Lemma prefix_iff (p s : string) :
  prefix p s = true <-> exists q, s = (p ++ q)%string.
Proof.
  revert s. induction p as [|c p IH]; intros s.
  - destruct s; simpl; split; eauto.
  - destruct s as [|d s]; simpl.
    + split; [discriminate | intros [q H]; discriminate].
    + destruct (Ascii.ascii_dec c d) as [-> | Hne].
      * rewrite IH. split; intros [q H].
        -- exists q. now rewrite H.
        -- exists q. now inversion H.
      * split; [discriminate |].
        intros [q H]. inversion H. congruence.
Qed.

Lemma includes_iff (s sub : string) :
  includes s sub = true <-> occurs_in sub s.
Proof.
  unfold occurs_in. induction s as [|c s IH]; cbn [includes].
  - destruct (prefix sub EmptyString) eqn:E.
    + apply prefix_iff in E. destruct E as [q E].
      split; [intros _ | reflexivity].
      exists EmptyString, q. exact E.
    + split; [discriminate |].
      intros [p [q H]]. destruct p; simpl in H.
      * assert (prefix sub EmptyString = true) as E'
            by (apply prefix_iff; now exists q).
        congruence.
      * discriminate.
  - destruct (prefix sub (String c s)) eqn:E.
    + apply prefix_iff in E. destruct E as [q E].
      split; [intros _ | reflexivity].
      exists EmptyString, q. exact E.
    + rewrite IH. split; intros [p [q H]].
      * exists (String c p), q. simpl. now rewrite H.
      * destruct p as [|d p]; simpl in H.
        -- assert (prefix sub (String c s) = true) as E'
               by (apply prefix_iff; now exists q).
           congruence.
        -- inversion H. now exists p, q.
Qed.

Lemma includes_empty (s : string) : includes s EmptyString = true.
Proof.
  apply includes_iff. exists EmptyString, s. reflexivity.
Qed.

Lemma includes_trans (a b c : string) :
  includes a b = true -> includes b c = true -> includes a c = true.
Proof.
  rewrite !includes_iff. intros [p [q ->]] [p' [q' ->]].
  exists (p ++ p')%string, (q' ++ q)%string.
  now rewrite !append_assoc.
Qed.

Lemma toLowerCase_app (a b : string) :
  toLowerCase (a ++ b) = (toLowerCase a ++ toLowerCase b)%string.
Proof.
  induction a as [|c a IH]; simpl; [reflexivity | now rewrite IH].
Qed.

Ltac eval_digit :=
  match goal with
  | |- context [digit_of ?a] =>
      let v := eval vm_compute in (digit_of a) in
      change (digit_of a) with v
  end.

Lemma parse_digits_stop (rest : string) (acc : Z) :
  no_digit_next rest = true -> parse_digits rest acc = acc.
Proof.
  destruct rest as [|c r]; simpl; [reflexivity |].
  destruct (digit_of c); [discriminate | reflexivity].
Qed.

Lemma parse_digits_acc (d : Decimal.uint) (rest : string) :
  no_digit_next rest = true ->
  forall acc : positive,
    parse_digits (NilEmpty.string_of_uint d ++ rest) (Z.pos acc)
    = Z.pos (Pos.of_uint_acc d acc).
Proof.
  intros Hrest. induction d as [|d IH|d IH|d IH|d IH|d IH|d IH|d IH|d IH|d IH|d IH];
    intros acc;
    [ simpl; now apply parse_digits_stop | .. ];
    cbn [NilEmpty.string_of_uint append parse_digits Pos.of_uint_acc];
    eval_digit; cbv beta iota;
    match goal with
    | |- parse_digits _ ?a = Z.pos (Pos.of_uint_acc _ ?b) =>
        replace a with (Z.pos b) by lia
    end;
    apply IH.
Qed.

Lemma parse_digits_zero (d : Decimal.uint) (rest : string) :
  no_digit_next rest = true ->
  parse_digits (NilEmpty.string_of_uint d ++ rest) 0
  = Z.of_N (Pos.of_uint d).
Proof.
  intros Hrest.
  induction d as [|d IH|d IH|d IH|d IH|d IH|d IH|d IH|d IH|d IH|d IH];
    [ simpl; now apply parse_digits_stop
    | cbn [NilEmpty.string_of_uint append parse_digits Pos.of_uint];
      eval_digit; cbv beta iota; exact IH
    | cbn [NilEmpty.string_of_uint append parse_digits Pos.of_uint Z.of_N];
      eval_digit; cbv beta iota;
      match goal with
      | |- parse_digits _ ?a = Z.pos (Pos.of_uint_acc _ ?b) =>
          change a with (Z.pos b)
      end;
      apply (parse_digits_acc d rest Hrest) .. ].
Qed.

Lemma parseInt_digit_start (c : ascii) (r : string) (k : Z) :
  digit_of c = Some k ->
  parseInt (String c r) = Some (parse_digits (String c r) 0).
Proof.
  intros H.
  destruct c as [[] [] [] [] [] [] [] []]; vm_compute in H;
    try discriminate;
    unfold parseInt; cbn [skip_whitespace];
    match goal with
    | |- context [is_whitespace ?a] =>
        let v := eval vm_compute in (is_whitespace a) in
        change (is_whitespace a) with v
    end;
    cbv beta iota; eval_digit;
    cbv beta iota; rewrite Z.mul_1_l; reflexivity.
Qed.

Lemma parseInt_minus (c : ascii) (r : string) (k : Z) :
  digit_of c = Some k ->
  parseInt (String "-" (String c r))
  = Some (- parse_digits (String c r) 0).
Proof.
  intros H. unfold parseInt.
  change (skip_whitespace (String "-" (String c r)))
    with (String "-" (String c r)).
  cbv beta iota. rewrite H. f_equal; lia.
Qed.

Lemma uint_string_starts_with_digit (d : Decimal.uint) :
  d <> Decimal.Nil ->
  exists c r k, NilEmpty.string_of_uint d = String c r
                /\ digit_of c = Some k.
Proof.
  destruct d; intros H; [congruence | ..]; simpl;
    do 3 eexists; split; reflexivity.
Qed.

(** [parseInt] reads back the decimal form of an integer, and ignores
    whatever follows it from the first character that is not a digit. *)
Lemma parseInt_number_to_string (n : number) (rest : string) :
  no_digit_next rest = true ->
  parseInt (number_to_string n ++ rest) = Some n.
Proof.
  intros Hrest. unfold number_to_string.
  destruct n as [|p|p]; cbn [Z.to_int NilZero.string_of_int].
  - change (NilZero.string_of_uint Decimal.zero) with "0"%string.
    cbn [append].
    rewrite (parseInt_digit_start "0" rest 0 eq_refl).
    cbn [parse_digits]. eval_digit. cbv beta iota.
    now rewrite parse_digits_stop.
  - pose proof (Unsigned.to_uint_nonnil p) as Hnn.
    assert (E : NilZero.string_of_uint (Pos.to_uint p)
                = NilEmpty.string_of_uint (Pos.to_uint p)).
    { unfold NilZero.string_of_uint.
      destruct (Pos.to_uint p); [congruence | reflexivity ..]. }
    rewrite E.
    destruct (uint_string_starts_with_digit _ Hnn) as [c [r [k [Hs Hc]]]].
    pose proof (parse_digits_zero (Pos.to_uint p) rest Hrest) as Hv.
    rewrite Hs in *. cbn [append] in *.
    rewrite (parseInt_digit_start c (r ++ rest) k Hc), Hv.
    now rewrite Unsigned.of_to.
  - pose proof (Unsigned.to_uint_nonnil p) as Hnn.
    assert (E : NilZero.string_of_uint (Pos.to_uint p)
                = NilEmpty.string_of_uint (Pos.to_uint p)).
    { unfold NilZero.string_of_uint.
      destruct (Pos.to_uint p); [congruence | reflexivity ..]. }
    rewrite E.
    destruct (uint_string_starts_with_digit _ Hnn) as [c [r [k [Hs Hc]]]].
    pose proof (parse_digits_zero (Pos.to_uint p) rest Hrest) as Hv.
    rewrite Hs in *. cbn [append] in *.
    rewrite (parseInt_minus c (r ++ rest) k Hc), Hv.
    now rewrite Unsigned.of_to.
Qed.

Lemma number_to_string_nonempty (n : number) :
  exists c r, number_to_string n = String c r.
Proof.
  pose proof (parseInt_number_to_string n EmptyString eq_refl) as H.
  rewrite append_nil_r in H.
  destruct (number_to_string n) as [|c r]; [discriminate | eauto].
Qed.

(** ** Further properties of the store actions *)

Lemma fetchUserById_miss_any (net : Network) (w : World) (i : number) :
  find_user i (users (store w)) = None ->
  fst (fetchUserById i net w) = Normal tt /\
  requests (snd (fetchUserById i net w)) = (requests w ++ [user_url i])%list /\
  users (store (snd (fetchUserById i net w))) = users (store w).
Proof.
  intros F. destruct (serve_user net (user_url i)) as [e | [u |]] eqn:E.
  - rewrite (fetchUserById_miss_failed net w i e F (or_introl E)).
    repeat split.
  - rewrite (fetchUserById_miss_resolved net w i u F E). repeat split.
  - rewrite (fetchUserById_miss_failed net w i _ F
               (or_intror (conj E eq_refl))).
    repeat split.
Qed.

Lemma fetchUsers_any (net : Network) (w : World) :
  fst (fetchUsers net w) = Normal tt /\
  requests (snd (fetchUsers net w)) = (requests w ++ [users_url])%list /\
  selectedUser (store (snd (fetchUsers net w))) = selectedUser (store w).
Proof.
  destruct (serve_users net users_url) as [e | [R |]] eqn:E.
  - rewrite (fetchUsers_failed net w e (or_introl E)). repeat split.
  - rewrite (fetchUsers_resolved net w R E). repeat split.
  - rewrite (fetchUsers_failed net w _ (or_intror (conj E eq_refl))).
    repeat split.
Qed.

Lemma repeat_snoc {A} (x : A) (n : nat) :
  (repeat x n ++ [x])%list = x :: repeat x n.
Proof.
  induction n as [|k IH]; simpl; [reflexivity | now rewrite IH].
Qed.

Lemma times_miss (net : Network) (i : number) (n : nat) :
  forall w, find_user i (users (store w)) = None ->
  requests (snd (times n (fetchUserById i) net w))
  = (requests w ++ repeat (user_url i) n)%list /\
  users (store (snd (times n (fetchUserById i) net w))) = users (store w).
Proof.
  induction n as [|k IH]; intros w F.
  - simpl. unfold ret. simpl. now rewrite app_nil_r.
  - destruct (fetchUserById_miss_any net w i F) as [H1 [H2 H3]].
    cbn [times]. unfold bind at 1 2.
    destruct (fetchUserById i net w) as [c w1]. simpl in H1, H2, H3.
    subst c.
    assert (F1 : find_user i (users (store w1)) = None) by now rewrite H3.
    destruct (IH w1 F1) as [G1 G2].
    rewrite G1, G2, H2, H3. split; [| reflexivity].
    rewrite <- app_assoc. reflexivity.
Qed.

Lemma times_fetchUsers (net : Network) (n : nat) :
  forall w,
  requests (snd (times n fetchUsers net w))
  = (requests w ++ repeat users_url n)%list /\
  selectedUser (store (snd (times n fetchUsers net w)))
  = selectedUser (store w).
Proof.
  induction n as [|k IH]; intros w.
  - simpl. unfold ret. simpl. now rewrite app_nil_r.
  - destruct (fetchUsers_any net w) as [H1 [H2 H3]].
    cbn [times]. unfold bind at 1 2.
    destruct (fetchUsers net w) as [c w1]. simpl in H1, H2, H3. subst c.
    destruct (IH w1) as [G1 G2].
    rewrite G1, G2, H2, H3. split; [| reflexivity].
    rewrite <- app_assoc. reflexivity.
Qed.

(** X1: once [fetchUsers] has loaded the collection [R], a following
    [fetchUserById(id)] for an id that occurs in [R] is answered from
    the store: the two calls issue one request in all (the one for the
    collection), and [selectedUser] is the first record of [R] with that
    id, with [error] null and [loading] false. *)
Theorem list_fetch_serves_detail (net : Network) (s : UserState)
    (R : list User) (i : number)
    (Hok : serve_users net users_url = Resolved (Some R))
    (Hin : exists r, In r R /\ id r = i) :
  requests (exec (fetchUsers ;; fetchUserById i) net s) = [users_url] /\
  (exists u, selectedUser (after (fetchUsers ;; fetchUserById i) net s)
             = Some u
             /\ find_user i R = Some u /\ In u R /\ id u = i) /\
  error (after (fetchUsers ;; fetchUserById i) net s) = None /\
  loading (after (fetchUsers ;; fetchUserById i) net s) = false.
Proof.
  destruct (find_user_present i R Hin) as [u Hu].
  destruct (find_user_some i R u Hu) as [Hin' Hid].
  unfold after, exec, bind.
  rewrite (fetchUsers_resolved net (fresh_world s) R Hok).
  match goal with
  | |- context [fetchUserById i net ?w] =>
      rewrite (fetchUserById_hit net w i u Hu)
  end.
  simpl. repeat split. exists u. auto.
Qed.

Lemma list_fetch_serves_detail_witness :
  serve_users sample_network users_url = Resolved (Some three_users) /\
  (exists r, In r three_users /\ id r = 3) /\
  requests (exec (fetchUsers ;; fetchUserById 3) sample_network
                 initial_state) = [users_url] /\
  (exists u, selectedUser (after (fetchUsers ;; fetchUserById 3)
                                 sample_network initial_state)
             = Some u
             /\ find_user 3 three_users = Some u
             /\ In u three_users /\ id u = 3) /\
  error (after (fetchUsers ;; fetchUserById 3) sample_network
               initial_state) = None /\
  loading (after (fetchUsers ;; fetchUserById 3) sample_network
                 initial_state) = false.
Proof.
  assert (H : exists r, In r three_users /\ id r = 3).
  { exists (sample_user 3 "kevinryan"). simpl. auto. }
  split; [reflexivity |].
  split; [exact H |].
  exact (list_fetch_serves_detail sample_network initial_state
           three_users 3 eq_refl H).
Defined.

(** X2: a user fetched by id is never cached.  While [id] is not in
    [users], [n] calls of [fetchUserById(id)] in a row issue [n] requests
    for the same url, whatever the remote answers, and [users] stays as
    it was. *)
Theorem single_fetch_never_cached (net : Network) (s : UserState)
    (i : number) (n : nat)
    (Habsent : forall r, In r (users s) -> id r <> i) :
  requests (exec (times n (fetchUserById i)) net s)
  = repeat (user_url i) n /\
  users (after (times n (fetchUserById i)) net s) = users s.
Proof.
  pose proof (find_user_absent i (users s) Habsent) as F.
  unfold after, exec.
  destruct (times_miss net i n (fresh_world s) F) as [H1 H2].
  rewrite H1, H2. split; reflexivity.
Qed.

Lemma single_fetch_never_cached_witness :
  (forall r, In r (users initial_state) -> id r <> 2) /\
  requests (exec (times 3 (fetchUserById 2)) sample_network initial_state)
  = repeat (user_url 2) 3 /\
  users (after (times 3 (fetchUserById 2)) sample_network initial_state)
  = users initial_state.
Proof.
  assert (Ha : forall r, In r (users initial_state) -> id r <> 2).
  { intros r Hr. simpl in Hr. contradiction. }
  split; [exact Ha |].
  exact (single_fetch_never_cached sample_network initial_state 2 3 Ha).
Defined.

(** X3: [fetchUsers] has no cache and leaves the selection alone: from
    any state and against any remote, [n] calls in a row issue [n]
    requests for the collection url, and [selectedUser] keeps the value
    it had, also when the new collection no longer holds that user. *)
Theorem fetchUsers_always_requests (net : Network) (s : UserState)
    (n : nat) :
  requests (exec (times n fetchUsers) net s) = repeat users_url n /\
  selectedUser (after (times n fetchUsers) net s) = selectedUser s.
Proof.
  unfold after, exec.
  destruct (times_fetchUsers net n (fresh_world s)) as [H1 H2].
  rewrite H1, H2. split; reflexivity.
Qed.

(** X4: a response that resolves with a null body (status 200, no user)
    is handled as a failure of [fetchUserById]: reading
    [response.data.username] throws a [TypeError], which the catch block
    logs; the call ends normally with [selectedUser] null, [loading]
    false, the id's error message, and [users] unchanged. *)
Theorem fetchUserById_null_body (net : Network) (s : UserState)
    (i : number)
    (Habsent : forall r, In r (users s) -> id r <> i)
    (Hnull : serve_user net (user_url i) = Resolved None) :
  outcome (fetchUserById i) net s = Normal tt /\
  after (fetchUserById i) net s
  = {| users := users s; loading := false;
       error := Some (fetchUserById_error i); selectedUser := None |} /\
  requests (exec (fetchUserById i) net s) = [user_url i] /\
  last (console (exec (fetchUserById i) net s)) (Log [])
  = Err [AStr "Error fetching user by ID:";
         AErr (TypeError
                 "Cannot read properties of null (reading 'username')")].
Proof.
  pose proof (find_user_absent i (users s) Habsent) as F.
  unfold outcome, after, exec.
  rewrite (fetchUserById_miss_failed net (fresh_world s) i _ F
             (or_intror (conj Hnull eq_refl))).
  repeat split.
Qed.

Lemma fetchUserById_null_body_witness :
  (forall r, In r (users initial_state) -> id r <> 1) /\
  serve_user duplicate_network (user_url 1) = Resolved None /\
  outcome (fetchUserById 1) duplicate_network initial_state = Normal tt /\
  after (fetchUserById 1) duplicate_network initial_state
  = {| users := []; loading := false;
       error := Some "Failed to fetch user with ID 1. Please try again."%string;
       selectedUser := None |} /\
  requests (exec (fetchUserById 1) duplicate_network initial_state)
  = [user_url 1] /\
  last (console (exec (fetchUserById 1) duplicate_network initial_state))
       (Log [])
  = Err [AStr "Error fetching user by ID:";
         AErr (TypeError
                 "Cannot read properties of null (reading 'username')")].
Proof.
  assert (Ha : forall r, In r (users initial_state) -> id r <> 1).
  { intros r Hr. simpl in Hr. contradiction. }
  split; [exact Ha |].
  split; [reflexivity |].
  exact (fetchUserById_null_body duplicate_network initial_state 1 Ha
           eq_refl).
Defined.

(** X5: when the collection request resolves with a null body,
    [fetchUsers] does not overwrite [users]: reading
    [response.data.length] throws, the catch block sets the fixed error
    message, and [users] and [selectedUser] keep their values. *)
Theorem fetchUsers_null_body (net : Network) (s : UserState)
    (Hnull : serve_users net users_url = Resolved None) :
  outcome fetchUsers net s = Normal tt /\
  after fetchUsers net s
  = {| users := users s; loading := false;
       error := Some fetchUsers_error; selectedUser := selectedUser s |} /\
  wrote_users (exec fetchUsers net s) = false.
Proof.
  unfold outcome, after, exec.
  rewrite (fetchUsers_failed net (fresh_world s) _
             (or_intror (conj Hnull eq_refl))).
  repeat split.
Qed.

Lemma fetchUsers_null_body_witness :
  serve_users (mkNetwork (fun _ => Resolved None) (fun _ => Resolved None))
              users_url = Resolved None /\
  outcome fetchUsers
    (mkNetwork (fun _ => Resolved None) (fun _ => Resolved None))
    (mkState three_users false None None) = Normal tt /\
  after fetchUsers
    (mkNetwork (fun _ => Resolved None) (fun _ => Resolved None))
    (mkState three_users false None None)
  = {| users := three_users; loading := false;
       error := Some fetchUsers_error; selectedUser := None |} /\
  wrote_users
    (exec fetchUsers
       (mkNetwork (fun _ => Resolved None) (fun _ => Resolved None))
       (mkState three_users false None None)) = false.
Proof.
  split; [reflexivity |].
  exact (fetchUsers_null_body
           (mkNetwork (fun _ => Resolved None) (fun _ => Resolved None))
           (mkState three_users false None None) eq_refl).
Defined.

(** X6: every fetch, whatever its outcome, makes exactly two calls of
    [set]: the first raises [loading] and clears a stale [error], the
    second lowers [loading]. *)
Theorem fetch_raises_loading_first (net : Network) (s : UserState) :
  (exists p,
     writes (exec fetchUsers net s)
     = [mkPartial None (Some true) (Some None) None; p]
     /\ p_loading p = Some false) /\
  (forall i, exists p,
     writes (exec (fetchUserById i) net s)
     = [mkPartial None (Some true) (Some None) None; p]
     /\ p_loading p = Some false).
Proof.
  split.
  - unfold exec.
    destruct (serve_users net users_url) as [e | [R |]] eqn:E.
    + rewrite (fetchUsers_failed net _ e (or_introl E)).
      eexists. split; reflexivity.
    + rewrite (fetchUsers_resolved net _ R E).
      eexists. split; reflexivity.
    + rewrite (fetchUsers_failed net _ _ (or_intror (conj E eq_refl))).
      eexists. split; reflexivity.
  - intros i. unfold exec.
    destruct (find_user i (users s)) as [u |] eqn:F.
    + rewrite (fetchUserById_hit net (fresh_world s) i u F).
      eexists. split; reflexivity.
    + destruct (serve_user net (user_url i)) as [e | [u |]] eqn:E.
      * rewrite (fetchUserById_miss_failed net (fresh_world s) i e F
                   (or_introl E)).
        eexists. split; reflexivity.
      * rewrite (fetchUserById_miss_resolved net (fresh_world s) i u F E).
        eexists. split; reflexivity.
      * rewrite (fetchUserById_miss_failed net (fresh_world s) i _ F
                   (or_intror (conj E eq_refl))).
        eexists. split; reflexivity.
Qed.

(** ** Properties of the search filter *)

Lemma matches_search_iff (t : string) (u : User) :
  matches_search t u = true <->
  occurs_in (toLowerCase t) (toLowerCase (username u))
  \/ occurs_in (toLowerCase t) (toLowerCase (email u))
  \/ occurs_in (toLowerCase t)
       (toLowerCase (firstname (name u)) ++ " "
          ++ toLowerCase (lastname (name u)))%string.
Proof.
  unfold matches_search, fullName.
  rewrite !orb_true_iff, !includes_iff, !toLowerCase_app.
  change (toLowerCase " ") with " "%string. tauto.
Qed.

Lemma matches_search_narrows (t1 t2 : string) (u : User) :
  includes (toLowerCase t2) (toLowerCase t1) = true ->
  matches_search t2 u = true -> matches_search t1 u = true.
Proof.
  intros H. unfold matches_search. rewrite !orb_true_iff.
  intros [[H1 | H1] | H1];
    [left; left | left; right | right];
    exact (includes_trans _ _ _ H1 H).
Qed.

Lemma filter_filter_implied {A} (f g : A -> bool) (l : list A) :
  (forall x, f x = true -> g x = true) ->
  filter f (filter g l) = filter f l.
Proof.
  intros H. induction l as [|a l IH]; simpl; [reflexivity |].
  destruct (g a) eqn:G; simpl.
  - now rewrite IH.
  - destruct (f a) eqn:F; [| exact IH].
    apply H in F. congruence.
Qed.

(** X7: with an empty search term the filter keeps every user, in the
    order of the store. *)
Theorem empty_search_shows_all (l : list User) :
  filteredUsers l EmptyString = l.
Proof.
  unfold filteredUsers. induction l as [|u l IH]; simpl; [reflexivity |].
  unfold matches_search at 1. cbn [toLowerCase].
  rewrite includes_empty. simpl. now rewrite IH.
Qed.

(** X8: a user is listed for a search term exactly when it is in the
    store and the lower-cased term occurs in its lower-cased username,
    in its lower-cased email, or in its lower-cased first and last name
    joined by one space; no other field is searched and letter case
    never matters. *)
Theorem filteredUsers_membership (l : list User) (t : string) (u : User) :
  In u (filteredUsers l t) <->
  In u l /\
  (occurs_in (toLowerCase t) (toLowerCase (username u))
   \/ occurs_in (toLowerCase t) (toLowerCase (email u))
   \/ occurs_in (toLowerCase t)
        (toLowerCase (firstname (name u)) ++ " "
           ++ toLowerCase (lastname (name u)))%string).
Proof.
  unfold filteredUsers. rewrite filter_In, matches_search_iff. tauto.
Qed.

Lemma filteredUsers_membership_witness :
  In (sample_user 3 "kevinryan")
     (filteredUsers three_users "RYAN d"%string).
Proof.
  apply (proj2 (filteredUsers_membership three_users "RYAN d"%string
                  (sample_user 3 "kevinryan"))).
  split.
  - simpl. auto.
  - right. right. exists "kevin"%string, "oe"%string. reflexivity.
Defined.

(** X9: refining a search never adds results.  When the lower-cased
    term [t1] occurs in the lower-cased term [t2], every user listed for
    [t2] is listed for [t1], filtering for [t2] inside the results of
    [t1] gives the results of [t2], and the count for [t2] is at most
    the count for [t1]. *)
Theorem refined_search_narrows (l : list User) (t1 t2 : string)
    (Hsub : includes (toLowerCase t2) (toLowerCase t1) = true) :
  (forall u, In u (filteredUsers l t2) -> In u (filteredUsers l t1)) /\
  filteredUsers (filteredUsers l t1) t2 = filteredUsers l t2 /\
  (List.length (filteredUsers l t2)
   <= List.length (filteredUsers l t1))%nat.
Proof.
  assert (E : filteredUsers (filteredUsers l t1) t2 = filteredUsers l t2).
  { unfold filteredUsers. apply filter_filter_implied.
    intros x. now apply matches_search_narrows. }
  split; [| split; [exact E |]].
  - intros u Hu. rewrite <- E in Hu. unfold filteredUsers at 1 in Hu.
    apply filter_In in Hu. tauto.
  - rewrite <- E. unfold filteredUsers at 1. apply filter_length_le.
Qed.

Lemma refined_search_narrows_witness :
  includes (toLowerCase "John"%string) (toLowerCase "OH"%string) = true /\
  (forall u, In u (filteredUsers three_users "John"%string) ->
             In u (filteredUsers three_users "OH"%string)) /\
  filteredUsers (filteredUsers three_users "OH"%string) "John"%string
  = filteredUsers three_users "John"%string /\
  (List.length (filteredUsers three_users "John"%string)
   <= List.length (filteredUsers three_users "OH"%string))%nat.
Proof.
  split; [reflexivity |].
  apply (refined_search_narrows three_users "OH"%string "John"%string).
  reflexivity.
Defined.

(** ** Properties of the components *)

Lemma UserDetail_mount_valid (str : string) (n : number) :
  parseInt str = Some n ->
  UserDetail_mount (Some str)
  = (lift (console_log [AStr "UserDetail mounted, fetching user ID:";
                        ANum n]) ;;
     lift (fetchUserById n))%view.
Proof.
  intros H. destruct str as [|c r]; [discriminate |].
  cbn [UserDetail_mount]. now rewrite H.
Qed.

(** The store and the requests that [fetchUserById] leaves depend on the
    store and the requests it starts from, not on the console. *)
Lemma fetchUserById_console_irrelevant (net : Network) (i : number)
    (w w' : World) :
  store w = store w' -> requests w = requests w' ->
  store (snd (fetchUserById i net w)) = store (snd (fetchUserById i net w'))
  /\ requests (snd (fetchUserById i net w))
     = requests (snd (fetchUserById i net w')).
Proof.
  intros Hs Hr.
  destruct (find_user i (users (store w))) as [u |] eqn:F.
  - assert (F' : find_user i (users (store w')) = Some u)
      by now rewrite <- Hs.
    rewrite (fetchUserById_hit net w i u F),
            (fetchUserById_hit net w' i u F').
    simpl. now rewrite Hs, Hr.
  - assert (F' : find_user i (users (store w')) = None)
      by now rewrite <- Hs.
    destruct (serve_user net (user_url i)) as [e | [u |]] eqn:E.
    + rewrite (fetchUserById_miss_failed net w i e F (or_introl E)),
              (fetchUserById_miss_failed net w' i e F' (or_introl E)).
      simpl. now rewrite Hs, Hr.
    + rewrite (fetchUserById_miss_resolved net w i u F E),
              (fetchUserById_miss_resolved net w' i u F' E).
      simpl. now rewrite Hs, Hr.
    + rewrite (fetchUserById_miss_failed net w i _ F
                 (or_intror (conj E eq_refl))),
              (fetchUserById_miss_failed net w' i _ F'
                 (or_intror (conj E eq_refl))).
      simpl. now rewrite Hs, Hr.
Qed.

(** What the mount effect of the detail view leaves, for a parameter
    that [parseInt] accepts as [n]: the store and requests of
    [fetchUserById n], no toast, no navigation. *)
Lemma UserDetail_mount_runs_fetch (net : Network) (s : UserState)
    (str : string) (n : number) :
  parseInt str = Some n ->
  store (world (vexec (UserDetail_mount (Some str)) net s))
  = after (fetchUserById n) net s /\
  requests (world (vexec (UserDetail_mount (Some str)) net s))
  = requests (exec (fetchUserById n) net s) /\
  toasts (vexec (UserDetail_mount (Some str)) net s) = [] /\
  navigations (vexec (UserDetail_mount (Some str)) net s) = [].
Proof.
  intros H. rewrite (UserDetail_mount_valid str n H).
  unfold vexec, vbind, lift, console_log, after, exec.
  cbn [fresh_browser world toasts navigations fst snd].
  match goal with
  | |- context [fetchUserById n net ?w] =>
      destruct (fetchUserById_console_irrelevant net n w (fresh_world s)
                  eq_refl eq_refl) as [Hs Hr];
      destruct (fetchUserById n net w) as [c w1]
  end.
  cbn [fst snd world toasts navigations] in *.
  destruct c; cbn [fst snd world toasts navigations]; auto.
Qed.

(** X10: the Retry button of the list acts on the store as [fetchUsers]
    alone does: the [clearError] call it makes first changes nothing in
    the outcome.  From any state and against any remote, the store after
    the handler is the store after one [fetchUsers], one request is
    issued, and no toast is shown and no navigation made. *)
Theorem list_retry_is_fetchUsers (net : Network) (s : UserState) :
  fst (UserList_handleRetry net (fresh_browser s)) = Normal tt /\
  store (world (vexec UserList_handleRetry net s)) = after fetchUsers net s /\
  requests (world (vexec UserList_handleRetry net s)) = [users_url] /\
  toasts (vexec UserList_handleRetry net s) = [] /\
  navigations (vexec UserList_handleRetry net s) = [].
Proof.
  unfold vexec, UserList_handleRetry, vbind, lift, console_log, clearError,
    set, after, exec.
  cbn [fresh_browser world toasts navigations fst snd].
  destruct (serve_users net users_url) as [e | [R |]] eqn:E.
  - match goal with
    | |- context [fetchUsers net ?w] =>
        rewrite (fetchUsers_failed net w e (or_introl E))
    end.
    rewrite (fetchUsers_failed net (fresh_world s) e (or_introl E)).
    repeat split.
  - match goal with
    | |- context [fetchUsers net ?w] =>
        rewrite (fetchUsers_resolved net w R E)
    end.
    rewrite (fetchUsers_resolved net (fresh_world s) R E).
    repeat split.
  - match goal with
    | |- context [fetchUsers net ?w] =>
        rewrite (fetchUsers_failed net w _ (or_intror (conj E eq_refl)))
    end.
    rewrite (fetchUsers_failed net (fresh_world s) _
               (or_intror (conj E eq_refl))).
    repeat split.
Qed.

(** X11: clicking the card of a user that is in the store and whose id
    is a safe integer, as the list wires it ([onClick] is
    [handleUserClick]), navigates to "/user/" followed by the decimal id
    and touches neither the store nor the network; when the detail view
    then mounts with that id as its route parameter, [parseInt] gives
    the id back and the user is served from the store: no request,
    [selectedUser] is the first stored record with that id, [loading] is
    false and no toast is shown. *)
Theorem card_click_opens_cached_detail (net : Network) (s : UserState)
    (u : User) (Hin : In u (users s))
    (Hsafe : isSafeInteger (id u) = true) :
  navigations (vexec (UserCard_handleClick u (Some handleUserClick)) net s)
  = [("/user/" ++ number_to_string (id u))%string] /\
  store (world (vexec (UserCard_handleClick u (Some handleUserClick)) net s))
  = s /\
  requests
    (world (vexec (UserCard_handleClick u (Some handleUserClick)) net s))
  = [] /\
  parseInt (number_to_string (id u)) = Some (id u) /\
  requests
    (world (vexec (UserDetail_mount (Some (number_to_string (id u)))) net s))
  = [] /\
  (exists u',
     selectedUser
       (store (world (vexec (UserDetail_mount
                               (Some (number_to_string (id u)))) net s)))
     = Some u'
     /\ find_user (id u) (users s) = Some u' /\ id u' = id u) /\
  loading
    (store (world (vexec (UserDetail_mount
                            (Some (number_to_string (id u)))) net s)))
  = false /\
  toasts (vexec (UserDetail_mount (Some (number_to_string (id u)))) net s)
  = [].
Proof.
  assert (P : parseInt (number_to_string (id u)) = Some (id u)).
  { pose proof (parseInt_number_to_string (id u) EmptyString eq_refl) as H.
    now rewrite append_nil_r in H. }
  destruct (UserDetail_mount_runs_fetch net s _ _ P) as [M1 [M2 [M3 _]]].
  destruct (find_user_present (id u) (users s)) as [u' Hu'].
  { exists u. auto. }
  destruct (find_user_some _ _ _ Hu') as [_ Hid].
  rewrite M1, M2, M3. unfold after, exec.
  rewrite (fetchUserById_hit net (fresh_world s) (id u) u' Hu').
  cbn [fst snd store requests loading selectedUser].
  repeat split; try assumption.
  exists u'. auto.
Qed.

Lemma card_click_opens_cached_detail_witness :
  In (sample_user 2 "mor_2314") (users (mkState three_users false None None))
  /\
  isSafeInteger (id (sample_user 2 "mor_2314")) = true /\
  navigations
    (vexec (UserCard_handleClick (sample_user 2 "mor_2314")
                                 (Some handleUserClick))
           offline_network (mkState three_users false None None))
  = ["/user/2"%string] /\
  store
    (world (vexec (UserCard_handleClick (sample_user 2 "mor_2314")
                                        (Some handleUserClick))
                  offline_network (mkState three_users false None None)))
  = mkState three_users false None None /\
  requests
    (world (vexec (UserCard_handleClick (sample_user 2 "mor_2314")
                                        (Some handleUserClick))
                  offline_network (mkState three_users false None None)))
  = [] /\
  parseInt "2" = Some 2 /\
  requests
    (world (vexec (UserDetail_mount (Some "2"%string)) offline_network
                  (mkState three_users false None None)))
  = [] /\
  (exists u',
     selectedUser
       (store (world (vexec (UserDetail_mount (Some "2"%string))
                            offline_network
                            (mkState three_users false None None))))
     = Some u'
     /\ find_user 2 three_users = Some u' /\ id u' = 2) /\
  loading
    (store (world (vexec (UserDetail_mount (Some "2"%string))
                         offline_network
                         (mkState three_users false None None))))
  = false /\
  toasts (vexec (UserDetail_mount (Some "2"%string)) offline_network
                (mkState three_users false None None))
  = [].
Proof.
  assert (H : In (sample_user 2 "mor_2314")
                 (users (mkState three_users false None None))).
  { simpl. auto. }
  split; [exact H |].
  split; [reflexivity |].
  exact (card_click_opens_cached_detail offline_network
           (mkState three_users false None None)
           (sample_user 2 "mor_2314") H eq_refl).
Defined.

(** X12: a route parameter in which [parseInt] finds no number makes the
    detail view call no store action: the store is exactly what it was
    (a user selected earlier stays selected), nothing is requested or
    written, and the "Invalid User ID" toast is shown; for an empty or
    missing parameter not even the toast is shown. *)
Theorem invalid_route_id_leaves_store (net : Network) (s : UserState)
    (str : string) (Hnan : parseInt str = None) :
  store (world (vexec (UserDetail_mount (Some str)) net s)) = s /\
  requests (world (vexec (UserDetail_mount (Some str)) net s)) = [] /\
  writes (world (vexec (UserDetail_mount (Some str)) net s)) = [] /\
  toasts (vexec (UserDetail_mount (Some str)) net s)
  = match str with
    | EmptyString => []
    | String _ _ =>
        [{| variant := "destructive"; title := "Invalid User ID";
            description := "The user ID in the URL is not valid." |}]
    end /\
  UserDetail_render (store (world (vexec (UserDetail_mount (Some str)) net s)))
  = UserDetail_render s /\
  vexec (UserDetail_mount None) net s = fresh_browser s.
Proof.
  destruct str as [|c r].
  - repeat split.
  - unfold vexec. cbn [UserDetail_mount]. rewrite Hnan.
    repeat split.
Qed.

Lemma invalid_route_id_leaves_store_witness :
  parseInt "abc" = None /\
  store (world (vexec (UserDetail_mount (Some "abc"%string)) sample_network
                      (mkState three_users false None
                               (Some (sample_user 1 "johnd")))))
  = mkState three_users false None (Some (sample_user 1 "johnd")) /\
  requests (world (vexec (UserDetail_mount (Some "abc"%string))
                         sample_network
                         (mkState three_users false None
                                  (Some (sample_user 1 "johnd"))))) = [] /\
  writes (world (vexec (UserDetail_mount (Some "abc"%string))
                       sample_network
                       (mkState three_users false None
                                (Some (sample_user 1 "johnd"))))) = [] /\
  toasts (vexec (UserDetail_mount (Some "abc"%string)) sample_network
                (mkState three_users false None
                         (Some (sample_user 1 "johnd"))))
  = [{| variant := "destructive"; title := "Invalid User ID";
        description := "The user ID in the URL is not valid." |}] /\
  UserDetail_render
    (store (world (vexec (UserDetail_mount (Some "abc"%string))
                         sample_network
                         (mkState three_users false None
                                  (Some (sample_user 1 "johnd"))))))
  = UserDetail_render
      (mkState three_users false None (Some (sample_user 1 "johnd"))) /\
  vexec (UserDetail_mount None) sample_network
        (mkState three_users false None (Some (sample_user 1 "johnd")))
  = fresh_browser
      (mkState three_users false None (Some (sample_user 1 "johnd"))).
Proof.
  split; [reflexivity |].
  exact (invalid_route_id_leaves_store sample_network
           (mkState three_users false None (Some (sample_user 1 "johnd")))
           "abc"%string eq_refl).
Defined.

(** X13: the detail view does not reject a route parameter that merely
    starts with a number.  When the decimal form of a safe integer [n] is
    followed by text whose first character is not a digit, [parseInt]
    yields [n] and the mount effect does what it does for [n] itself: the
    store and the requests are those of [fetchUserById n], and no toast
    is shown. *)
Theorem route_id_prefix_is_fetched (net : Network) (s : UserState)
    (n : number) (rest : string)
    (Hsafe : isSafeInteger n = true)
    (Hrest : no_digit_next rest = true) :
  parseInt (number_to_string n ++ rest) = Some n /\
  store (world (vexec (UserDetail_mount
                         (Some (number_to_string n ++ rest)%string)) net s))
  = after (fetchUserById n) net s /\
  requests (world (vexec (UserDetail_mount
                            (Some (number_to_string n ++ rest)%string))
                         net s))
  = requests (exec (fetchUserById n) net s) /\
  toasts (vexec (UserDetail_mount
                   (Some (number_to_string n ++ rest)%string)) net s)
  = [].
Proof.
  pose proof (parseInt_number_to_string n rest Hrest) as P.
  destruct (UserDetail_mount_runs_fetch net s _ _ P) as [M1 [M2 [M3 _]]].
  auto.
Qed.

Lemma route_id_prefix_is_fetched_witness :
  isSafeInteger 2 = true /\
  no_digit_next "abc" = true /\
  parseInt "2abc" = Some 2 /\
  store (world (vexec (UserDetail_mount (Some "2abc"%string))
                      sample_network initial_state))
  = after (fetchUserById 2) sample_network initial_state /\
  requests (world (vexec (UserDetail_mount (Some "2abc"%string))
                         sample_network initial_state))
  = requests (exec (fetchUserById 2) sample_network initial_state) /\
  toasts (vexec (UserDetail_mount (Some "2abc"%string))
                sample_network initial_state)
  = [].
Proof.
  split; [reflexivity |].
  split; [reflexivity |].
  exact (route_id_prefix_is_fetched sample_network initial_state 2
           "abc"%string eq_refl eq_refl).
Defined.

(** X14: what the detail view renders once [fetchUserById(id)] has
    completed, by the answer the call got.  When the id is in the store:
    the card of the stored user.  Otherwise, when the response carries a
    user record: the card of that user; when the request was rejected or
    its body was null: the error panel with the id's message, not the
    "User not found" panel.  In each of these cases the loading
    placeholders are gone. *)
Theorem detail_view_after_fetch (net : Network) (s : UserState)
    (i : number) :
  UserDetail_render (after (fetchUserById i) net s)
  = match find_user i (users s) with
    | Some u => DetailCard u (fullName u) (fullAddress u)
    | None =>
        match serve_user net (user_url i) with
        | Resolved (Some u) => DetailCard u (fullName u) (fullAddress u)
        | Resolved None => DetailError (fetchUserById_error i)
        | Rejected _ => DetailError (fetchUserById_error i)
        end
    end /\
  UserDetail_render (after (fetchUserById i) net s) <> DetailSkeleton.
Proof.
  unfold after, exec.
  destruct (find_user i (users s)) as [u |] eqn:F.
  - rewrite (fetchUserById_hit net (fresh_world s) i u F).
    repeat split; discriminate.
  - destruct (serve_user net (user_url i)) as [e | [u |]] eqn:E.
    + rewrite (fetchUserById_miss_failed net (fresh_world s) i e F
                 (or_introl E)).
      repeat split; discriminate.
    + rewrite (fetchUserById_miss_resolved net (fresh_world s) i u F E).
      repeat split; discriminate.
    + rewrite (fetchUserById_miss_failed net (fresh_world s) i _ F
                 (or_intror (conj E eq_refl))).
      repeat split; discriminate.
Qed.

(** X15: what the list renders once [fetchUsers] has completed.  After a
    success: no alert, no placeholders, the cards of the users of the
    response that match the search term (or the "No users found" panel),
    and the footer when the response is not empty.  After a failure: the
    alert with the fixed message and neither grid nor footer, although
    the users loaded earlier are still in the store and are still
    counted in the "Found n user(s)" line. *)
Theorem list_view_after_fetch (net : Network) (s : UserState)
    (t : string) :
  UserList_render (after fetchUsers net s) t
  = match serve_users net users_url with
    | Resolved (Some R) =>
        {| search_count :=
             if truthy (Some t)
             then Some (List.length (filteredUsers R t)) else None;
           error_alert := None;
           skeleton := false;
           grid := Some (if (0 <? List.length (filteredUsers R t))%nat
                         then Cards (filteredUsers R t) else NoUsersFound);
           stats_footer :=
             if (0 <? List.length R)%nat
             then Some (List.length R, List.length (filteredUsers R t))
             else None |}
    | _ =>
        {| search_count :=
             if truthy (Some t)
             then Some (List.length (filteredUsers (users s) t)) else None;
           error_alert := Some fetchUsers_error;
           skeleton := false;
           grid := None;
           stats_footer := None |}
    end.
Proof.
  unfold after, exec.
  destruct (serve_users net users_url) as [e | [R |]] eqn:E.
  - rewrite (fetchUsers_failed net (fresh_world s) e (or_introl E)).
    reflexivity.
  - rewrite (fetchUsers_resolved net (fresh_world s) R E). reflexivity.
  - rewrite (fetchUsers_failed net (fresh_world s) _
               (or_intror (conj E eq_refl))).
    reflexivity.
Qed.

(** X16: whenever the list shows its footer, the number displayed is at
    most the total, the total is positive, and the grid section is shown
    with it. *)
Theorem stats_footer_bounds (s : UserState) (t : string)
    (total shown : nat)
    (Hfooter : stats_footer (UserList_render s t) = Some (total, shown)) :
  (shown <= total)%nat /\ (0 < total)%nat /\
  total = List.length (users s) /\
  grid (UserList_render s t) <> None /\
  error_alert (UserList_render s t) = None /\
  skeleton (UserList_render s t) = false.
Proof.
  unfold UserList_render in *. cbn [stats_footer grid error_alert skeleton] in *.
  destruct (loading s); [discriminate |].
  destruct (truthy (error s)); [discriminate |].
  cbn [negb andb] in *.
  destruct (0 <? List.length (users s))%nat eqn:L; [| discriminate].
  inversion Hfooter; subst.
  apply Nat.ltb_lt in L.
  repeat split; try assumption; try discriminate.
  unfold filteredUsers. apply filter_length_le.
Qed.

Lemma stats_footer_bounds_witness :
  stats_footer (UserList_render (mkState three_users false None None)
                                "john"%string)
  = Some (3%nat, 1%nat) /\
  (1 <= 3)%nat /\ (0 < 3)%nat /\
  3%nat = List.length (users (mkState three_users false None None)) /\
  grid (UserList_render (mkState three_users false None None)
                        "john"%string) <> None /\
  error_alert (UserList_render (mkState three_users false None None)
                               "john"%string) = None /\
  skeleton (UserList_render (mkState three_users false None None)
                            "john"%string) = false.
Proof.
  split; [reflexivity |].
  exact (stats_footer_bounds (mkState three_users false None None)
           "john"%string 3%nat 1%nat eq_refl).
Defined.
